(** * Views of the HTTP component: [homeassistant/components/http/view.py]

    A shallow embedding of the view base class ([HomeAssistantView]), of its
    JSON helpers, of route registration and of the request adapter built by
    [request_handler_factory], followed by the properties of the specification
    that concern them.

    Conventions of the embedding.
    - A Python [str] is the list of its code points ([pystr]); [bytes] is a list
      of [Byte.byte].  Identifiers that the code never inspects (method names,
      URL patterns, header names, log and assertion messages) are Rocq strings.
    - Python values that flow through untyped positions (what a handler
      returns, what is passed to [json]) are the inductive type [pyval].
    - A computation that can raise is an [outcome]; one that also logs or calls
      out threads a state through the monad [M]: the trace of log lines and
      handler calls for a request, the router and the CORS registrations for
      [register].
    - [assert] statements are executed: this is Python's default mode
      ([__debug__] true).
    - The collaborators are kept at their interface.  A [web.Response] is the
      record of what it was built with; the router and the allow-CORS callback
      record what they are given; a handler is what the two predicates of the
      factory say of it and what a call of it gives.  Python's own [json.dumps],
      [json.loads] and UTF-8 codec are written out, for the values of
      [pyval]. *)

From Stdlib Require Import ZArith List String Ascii Bool Lia.
From Stdlib Require Import Strings.Byte DecimalString.
From Stdlib Require Import Permutation Sorted.
Import ListNotations.

Set Implicit Arguments.

(* ================================================================== *)
(** ** Text and bytes *)

Definition codepoint := Z.
Definition pystr := list codepoint.
Definition bytes := list byte.

(** A string literal of the source, as the list of its code points (the
    literals of this file are ASCII). *)
Definition lit (s : string) : pystr :=
  map (fun a => Z.of_N (N_of_ascii a)) (list_ascii_of_string s).

Definition byte_of_Z (z : Z) : byte :=
  match Byte.of_N (Z.to_N z) with
  | Some b => b
  | None => x00
  end.

Definition Z_of_byte (b : byte) : Z := Z.of_N (Byte.to_N b).

Local Open Scope Z_scope.

(** [str.encode("utf-8")] on one code point.  Surrogates (U+D800..U+DFFF) have
    no UTF-8 form: Python raises [UnicodeEncodeError] for them. *)
Definition utf8_encode_cp (c : codepoint) : option bytes :=
  if c <? 0 then None
  else if c <? 0x80 then Some [byte_of_Z c]
  else if c <? 0x800 then
    Some [byte_of_Z (Z.lor 0xC0 (Z.shiftr c 6));
          byte_of_Z (Z.lor 0x80 (Z.land c 0x3F))]
  else if c <? 0x10000 then
    if (0xD800 <=? c) && (c <=? 0xDFFF) then None
    else
      Some [byte_of_Z (Z.lor 0xE0 (Z.shiftr c 12));
            byte_of_Z (Z.lor 0x80 (Z.land (Z.shiftr c 6) 0x3F));
            byte_of_Z (Z.lor 0x80 (Z.land c 0x3F))]
  else if c <? 0x110000 then
    Some [byte_of_Z (Z.lor 0xF0 (Z.shiftr c 18));
          byte_of_Z (Z.lor 0x80 (Z.land (Z.shiftr c 12) 0x3F));
          byte_of_Z (Z.lor 0x80 (Z.land (Z.shiftr c 6) 0x3F));
          byte_of_Z (Z.lor 0x80 (Z.land c 0x3F))]
  else None.

Fixpoint utf8_encode (s : pystr) : option bytes :=
  match s with
  | [] => Some []
  | c :: s' =>
      match utf8_encode_cp c, utf8_encode s' with
      | Some b, Some bs => Some (b ++ bs)
      | _, _ => None
      end
  end.

(* ================================================================== *)
(** ** Exceptions and results *)

(** The exception classes the module raises, catches or lets through.  A
    constructor stands for the class and its subclasses; the three classes a
    handler is expected to raise ([vol.Invalid], [exceptions.ServiceNotFound],
    [exceptions.Unauthorized]) are unrelated by inheritance, and so are the
    constructors.  [UnicodeEncodeError] is a subclass of [ValueError]. *)
Inductive exn : Type :=
| AssertionError (msg : string)
| TypeError (msg : string)
| ValueError (msg : string)
| UnicodeEncodeError
| vol_Invalid
| ServiceNotFound
| Unauthorized
| HTTPBadRequest
| HTTPUnauthorized
| HTTPInternalServerError
| OtherException (cls : string).

(** [except (ValueError, TypeError)] *)
Definition is_ValueError_or_TypeError (e : exn) : bool :=
  match e with
  | ValueError _ | UnicodeEncodeError | TypeError _ => true
  | _ => false
  end.

(** The class name, as [type(e).__name__] gives it. *)
Definition class_name (e : exn) : string :=
  match e with
  | AssertionError _ => "AssertionError"
  | TypeError _ => "TypeError"
  | ValueError _ => "ValueError"
  | UnicodeEncodeError => "UnicodeEncodeError"
  | vol_Invalid => "Invalid"
  | ServiceNotFound => "ServiceNotFound"
  | Unauthorized => "Unauthorized"
  | HTTPBadRequest => "HTTPBadRequest"
  | HTTPUnauthorized => "HTTPUnauthorized"
  | HTTPInternalServerError => "HTTPInternalServerError"
  | OtherException cls => cls
  end.

(** [status_code] of aiohttp's HTTP exceptions: the status the server answers
    with when one of them leaves a handler.  Any other exception is not an HTTP
    answer of this layer. *)
Definition http_status (e : exn) : option Z :=
  match e with
  | HTTPBadRequest => Some 400
  | HTTPUnauthorized => Some 401
  | HTTPInternalServerError => Some 500
  | _ => None
  end.

Inductive outcome (A : Type) : Type :=
| Return (a : A)
| Raise (e : exn).
Arguments Raise {A} e.

(** [s.encode("utf-8")] *)
Definition str_encode (s : pystr) : outcome bytes :=
  match utf8_encode s with
  | Some b => Return b
  | None => Raise UnicodeEncodeError
  end.

(* ================================================================== *)
(** ** Python values *)

(** Floats are kept by class: the code only needs to know whether one is
    finite, and a finite one is written by its [repr]. *)
Inductive pyfloat : Type :=
| FZero (negative : bool)
| FFinite (repr : string)
| FInf (negative : bool)
| FNaN.

Definition headers_t := list (string * string).

(** [web.Response]: the arguments of the constructor that this module passes,
    and whether [enable_compression] was called.  What aiohttp does with them
    later (validation, defaults, transport) is outside this file. *)
Record Response_of (V : Type) : Type := mkResponse {
  body : option bytes;
  status : V;
  content_type : option string;
  headers : option headers_t;
  compression : bool
}.

#[warnings="-register-all"]
Inductive pyval : Type :=
| PyNone
| PyBool (b : bool)
| PyInt (z : Z)
| PyFloat (f : pyfloat)
| PyStr (s : pystr)
| PyBytes (b : bytes)
| PyTuple (items : list pyval)
| PyList (items : list pyval)
| PyDict (items : list (pystr * pyval))      (* text keys, insertion order *)
| PyStreamResponse (r : Response_of pyval)
| PyCoroutine (completion : outcome pyval).   (* what awaiting it gives *)

Definition Response := Response_of pyval.

(** Modelled from the spec: [HTTP_OK] of [homeassistant.const], which is not
    among the sources; "200 (success default)". *)
Definition HTTP_OK : Z := 200.

(** Modelled from the spec: [CONTENT_TYPE_JSON] of [homeassistant.const], which
    is not among the sources; content-type "application/json". *)
Definition CONTENT_TYPE_JSON : string := "application/json".

(** [web.Response(body=..., status=..., content_type=..., headers=...)] *)
Definition web_Response (body : option bytes) (status : pyval)
    (content_type : option string) (headers : option headers_t) : Response :=
  mkResponse body status content_type headers false.

(** [response.enable_compression()] *)
Definition enable_compression (r : Response) : Response :=
  mkResponse (body r) (status r) (content_type r) (headers r) true.

(* ================================================================== *)
(** ** A state and exception monad *)

Definition M (S A : Type) : Type := S -> S * outcome A.

Definition ret {S A} (a : A) : M S A := fun s => (s, Return a).

Definition raise {S A} (e : exn) : M S A := fun s => (s, Raise e).

Definition bind {S A B} (m : M S A) (k : A -> M S B) : M S B :=
  fun s =>
    match m s with
    | (s', Return a) => k a s'
    | (s', Raise e) => (s', Raise e)
    end.

(** [try: m except ...: h], the clauses being the function [h], which re-raises
    what no clause matches. *)
Definition try_except {S A} (m : M S A) (h : exn -> M S A) : M S A :=
  fun s =>
    match m s with
    | (s', Return a) => (s', Return a)
    | (s', Raise e) => h e s'
    end.

(** A result that needs no state. *)
Definition lift {S A} (r : outcome A) : M S A := fun s => (s, r).

Declare Scope py_scope.
Delimit Scope py_scope with py.
Notation "x <- m ;; k" := (bind m (fun x => k))
  (at level 61, m at next level, right associativity) : py_scope.
Notation "m ;; k" := (bind m (fun _ => k))
  (at level 61, right associativity) : py_scope.
Local Open Scope py_scope.

(* ================================================================== *)
(** ** Requests, handlers, views *)

(** What the adapter reads of a [web.Request]. *)
Record Request : Type := mkRequest {
  is_running : bool;               (* request.app[KEY_HASS].is_running *)
  authenticated : option bool;     (* the entry KEY_AUTHENTICATED, if set *)
  real_ip : option string;         (* the entry KEY_REAL_IP, if set *)
  path : string;                   (* request.path *)
  match_info : list (string * string)  (* request.match_info *)
}.

(** [request.get(KEY_AUTHENTICATED, False)] *)
Definition get_authenticated (request : Request) : bool :=
  match authenticated request with
  | Some b => b
  | None => false
  end.

(** A method handler of a view: what the two predicates of
    [request_handler_factory] say of it, and what calling it with the request
    and keyword arguments gives (a value, possibly a coroutine, or an
    exception). *)
Record Handler : Type := mkHandler {
  iscoroutinefunction : bool;      (* asyncio.iscoroutinefunction(handler) *)
  is_callback : bool;              (* homeassistant.core.is_callback(handler) *)
  call : Request -> list (string * string) -> outcome pyval
}.

(** What happens while a request is served, in order. *)
Inductive event : Type :=
| LogDebug (path : string) (real_ip : option string) (authenticated : bool)
| LogError (err : exn) (result : pyval)
| Called (request : Request) (kwargs : list (string * string))
| Awaited.

Definition trace := list event.

Definition emit (e : event) : M trace unit := fun t => (t ++ [e], Return tt).

(** [HomeAssistantView] and its subclasses: the class attributes, and the
    method handlers found by [getattr(self, method, None)] (no entry: the
    attribute is missing or false). *)
Record HomeAssistantView : Type := mkView {
  url : option string;
  extra_urls : list string;
  requires_auth : bool;
  cors_allowed : bool;
  methods : list (string * Handler)
}.

(** The base class itself: lines 29-33. *)
Definition base_view : HomeAssistantView :=
  {| url := None;
     extra_urls := [];
     requires_auth := true;
     cors_allowed := false;
     methods := [] |}.

Fixpoint getattr (l : list (string * Handler)) (name : string) : option Handler :=
  match l with
  | [] => None
  | (n, h) :: l' => if String.eqb n name then Some h else getattr l' name
  end.

(* ================================================================== *)
(** ** The request adapter: [request_handler_factory] *)

Definition iscoroutine (v : pyval) : bool :=
  match v with
  | PyCoroutine _ => true
  | _ => false
  end.

(** [await result] *)
Definition await (v : pyval) : M trace pyval :=
  match v with
  | PyCoroutine completion => emit Awaited ;; lift completion
  | _ => raise (TypeError "object can't be used in 'await' expression")
  end.

(** The body of the [try]: lines 126-129. *)
Definition invoke (handler : Handler) (request : Request) : M trace pyval :=
  emit (Called request (match_info request)) ;;
  result <- lift (call handler request (match_info request)) ;;
  if iscoroutine result then await result else ret result.

(** The [except] clauses: lines 130-135. *)
Definition translate (e : exn) : M trace pyval :=
  match e with
  | vol_Invalid => raise HTTPBadRequest
  | ServiceNotFound => raise HTTPInternalServerError
  | Unauthorized => raise HTTPUnauthorized
  | _ => raise e
  end.

(** [result, status_code = result] on a tuple. *)
Definition unpack2 (items : list pyval) : outcome (pyval * pyval) :=
  match items with
  | [a; b] => Return (a, b)
  | _ :: _ :: _ :: _ => Raise (ValueError "too many values to unpack (expected 2)")
  | [_] => Raise (ValueError "not enough values to unpack (expected 2, got 1)")
  | [] => Raise (ValueError "not enough values to unpack (expected 2, got 0)")
  end.

(** Lines 146-155 (the message of the assertion goes on with the value). *)
Definition to_bytes (result : pyval) : outcome bytes :=
  match result with
  | PyBytes b => Return b
  | PyStr s => str_encode s
  | PyNone => Return []
  | _ => Raise (AssertionError "Result should be None, string, bytes or Response.")
  end.

(** Lines 137-157. *)
Definition normalize (result : pyval) : M trace Response :=
  match result with
  | PyStreamResponse r => ret r
  | _ =>
      p <- lift (match result with
                 | PyTuple items => unpack2 items
                 | _ => Return (result, PyInt HTTP_OK)
                 end) ;;
      bresult <- lift (to_bytes (fst p)) ;;
      ret (web_Response (Some bresult) (snd p) None None)
  end.

(** The coroutine [handle] of lines 108-157, for the view and handler it
    closes over. *)
Definition handle (view : HomeAssistantView) (handler : Handler)
    (request : Request) : M trace Response :=
  if negb (is_running request) then
    ret (web_Response None (PyInt 503) None None)
  else
    let authenticated := get_authenticated request in
    if requires_auth view && negb authenticated then raise HTTPUnauthorized
    else
      emit (LogDebug (path request) (real_ip request) authenticated) ;;
      result <- try_except (invoke handler request) translate ;;
      normalize result.

(** Lines 102-159. *)
Definition request_handler_factory (view : HomeAssistantView) (handler : Handler)
  : outcome (Request -> M trace Response) :=
  if iscoroutinefunction handler || is_callback handler then
    Return (handle view handler)
  else Raise (AssertionError "Handler should be a coroutine or a callback.").

(* ================================================================== *)
(** ** JSON text: [json.dumps(result, sort_keys=True, cls=JSONEncoder,
       allow_nan=False)] *)

(** One lower-case hexadecimal digit. *)
Definition hex_digit (n : Z) : codepoint :=
  if n <? 10 then 48 + n else 87 + n.

(** ['\\u{0:04x}'.format(n)] *)
Definition u_escape (n : Z) : pystr :=
  [92; 117;
   hex_digit (Z.land (Z.shiftr n 12) 0xF);
   hex_digit (Z.land (Z.shiftr n 8) 0xF);
   hex_digit (Z.land (Z.shiftr n 4) 0xF);
   hex_digit (Z.land n 0xF)].

(** The replacement of one character by [json.encoder]'s ASCII-only escaping
    ([ensure_ascii] is left at its default): the quote, the backslash and the
    five short escapes; printable ASCII as it is; anything else as [\uXXXX],
    with a surrogate pair above the basic plane. *)
Definition escape_cp (c : codepoint) : pystr :=
  if c =? 34 then [92; 34]
  else if c =? 92 then [92; 92]
  else if c =? 10 then [92; 110]
  else if c =? 13 then [92; 114]
  else if c =? 9 then [92; 116]
  else if c =? 12 then [92; 102]
  else if c =? 8 then [92; 98]
  else if (32 <=? c) && (c <=? 126) then [c]
  else if c <? 0x10000 then u_escape c
  else
    let n := c - 0x10000 in
    u_escape (Z.lor 0xD800 (Z.land (Z.shiftr n 10) 0x3FF))
      ++ u_escape (Z.lor 0xDC00 (Z.land n 0x3FF)).

Definition encode_basestring_ascii (s : pystr) : pystr :=
  [34] ++ flat_map escape_cp s ++ [34].

(** [int.__repr__] *)
Definition int_repr (z : Z) : pystr :=
  lit (DecimalString.NilZero.string_of_int (Z.to_int z)).

(** [floatstr] with [allow_nan=False]. *)
Definition floatstr (f : pyfloat) : outcome pystr :=
  match f with
  | FZero false => Return (lit "0.0")
  | FZero true => Return (lit "-0.0")
  | FFinite repr => Return (lit repr)
  | FInf _ | FNaN =>
      Raise (ValueError "Out of range float values are not JSON compliant")
  end.

(** Modelled from the spec: the encoder class [JSONEncoder] of
    [homeassistant.helpers.json] is not among the sources.  Its hook [default]
    is reached for a value that is not JSON-native; for those of this model
    (bytes, a response object, a coroutine) the value is "non-JSON-encodable"
    and the hook ends in the [TypeError] of [json.JSONEncoder.default]. *)
Definition JSONEncoder_default (o : pyval) : exn :=
  TypeError "Object is not JSON serializable".

(** Code-point order on text: [str.__le__]. *)
Fixpoint str_leb (a b : pystr) : bool :=
  match a, b with
  | [], _ => true
  | _ :: _, [] => false
  | x :: a', y :: b' =>
      if x <? y then true
      else if y <? x then false
      else str_leb a' b'
  end.

(** [sorted(dct.items())]: the keys of a dictionary are distinct, so the order
    of the pairs is the order of their keys. *)
Fixpoint insert_item {V} (kv : pystr * V) (l : list (pystr * V))
  : list (pystr * V) :=
  match l with
  | [] => [kv]
  | kv' :: l' =>
      if str_leb (fst kv) (fst kv') then kv :: l
      else kv' :: insert_item kv l'
  end.

Definition sort_items {V} (l : list (pystr * V)) : list (pystr * V) :=
  fold_right insert_item [] l.

(** The first exception in order, or all the values. *)
Fixpoint sequence {A} (l : list (outcome A)) : outcome (list A) :=
  match l with
  | [] => Return []
  | Raise e :: _ => Raise e
  | Return a :: l' =>
      match sequence l' with
      | Return l'' => Return (a :: l'')
      | Raise e => Raise e
      end
  end.

(** [sep.join(l)] *)
Fixpoint join (sep : pystr) (l : list pystr) : pystr :=
  match l with
  | [] => []
  | [x] => x
  | x :: l' => x ++ sep ++ join sep l'
  end.

(** ["[" + ", ".join(...) + "]"] over the chunks of the elements. *)
Definition render_array (chunks : list (outcome pystr)) : outcome pystr :=
  match sequence chunks with
  | Return ts => Return ([91] ++ join (lit ", ") ts ++ [93])
  | Raise e => Raise e
  end.

(** One member of an object: the escaped key, [": "], the value. *)
Definition render_member (kv : pystr * outcome pystr) : outcome pystr :=
  match snd kv with
  | Return t => Return (encode_basestring_ascii (fst kv) ++ lit ": " ++ t)
  | Raise e => Raise e
  end.

(** ["{" + ", ".join(...) + "}"] over the members, taken in the order given. *)
Definition render_object (members : list (pystr * outcome pystr))
  : outcome pystr :=
  match sequence (map render_member members) with
  | Return ts => Return ([123] ++ join (lit ", ") ts ++ [125])
  | Raise e => Raise e
  end.

(** The encoder.  It walks a dictionary in the sorted order of its items and
    stops at the first value that fails; as encoding a value has no effect,
    this is the first failure, in sorted order, among the values encoded one by
    one, which is how the dictionary case is written here. *)
Fixpoint json_dumps (o : pyval) : outcome pystr :=
  match o with
  | PyNone => Return (lit "null")
  | PyBool true => Return (lit "true")
  | PyBool false => Return (lit "false")
  | PyInt z => Return (int_repr z)
  | PyFloat f => floatstr f
  | PyStr s => Return (encode_basestring_ascii s)
  | PyTuple items | PyList items => render_array (map json_dumps items)
  | PyDict items =>
      render_object
        (sort_items (map (fun kv => (fst kv, json_dumps (snd kv))) items))
  | PyBytes _ | PyStreamResponse _ | PyCoroutine _ =>
      Raise (JSONEncoder_default o)
  end.

(* ================================================================== *)
(** ** The JSON helpers of the view: lines 44-76 *)

(** [HomeAssistantView.json] *)
Definition json (result : pyval) (status_code : Z) (headers : option headers_t)
  : M trace Response :=
  msg <- try_except
           (lift (match json_dumps result with
                  | Return text => str_encode text
                  | Raise e => Raise e
                  end))
           (fun err =>
              if is_ValueError_or_TypeError err then
                emit (LogError err result) ;;
                raise HTTPInternalServerError
              else raise err) ;;
  let response :=
    web_Response (Some msg) (PyInt status_code) (Some CONTENT_TYPE_JSON) headers in
  ret (enable_compression response).


(** [data[key] = value] on a dictionary. *)
Fixpoint dict_setitem {V} (data : list (pystr * V)) (key : pystr) (value : V)
  : list (pystr * V) :=
  match data with
  | [] => [(key, value)]
  | (k, v) :: data' =>
      if (str_leb k key && str_leb key k)%bool then (k, value) :: data'
      else (k, v) :: dict_setitem data' key value
  end.

(** [HomeAssistantView.json_message] *)
Definition json_message (message : pystr) (status_code : Z)
    (message_code : option pystr) (headers : option headers_t)
  : M trace Response :=
  let data := [(lit "message", PyStr message)] in
  let data :=
    match message_code with
    | Some code => dict_setitem data (lit "code") (PyStr code)
    | None => data
    end in
  json (PyDict data) status_code headers.

(* ================================================================== *)
(** ** Registration: [HomeAssistantView.register], lines 78-99 *)

(** A route of the router: what [add_route] was given. *)
Record Route : Type := mkRoute {
  route_method : string;
  route_path : string;
  route_handler : Request -> M trace Response
}.

(** The two collaborators that [register] changes: the table of the router,
    and the routes that the application's ["allow_cors"] callback was called
    with, both in order.  The router and the callback are taken to accept what
    they are given. *)
Record Registry : Type := mkRegistry {
  routes : list Route;
  cors : list Route
}.

(** [router.add_route(method, url, handler)] *)
Definition add_route (method url : string)
    (handler : Request -> M trace Response) : M Registry Route :=
  fun st =>
    let route := mkRoute method url handler in
    (mkRegistry (routes st ++ [route]) (cors st), Return route).

(** [app["allow_cors"](route)] *)
Definition allow_cors (route : Route) : M Registry unit :=
  fun st => (mkRegistry (routes st) (cors st ++ [route]), Return tt).

(** [for x in l: acc = body(x, acc)] *)
Fixpoint for_loop {S A B} (l : list A) (acc : B) (body : A -> B -> M S B)
  : M S B :=
  match l with
  | [] => ret acc
  | x :: l' => acc' <- body x acc ;; for_loop l' acc' body
  end.

Definition METHODS : list string :=
  ["get"; "post"; "delete"; "put"; "patch"; "head"; "options"]%string.

Definition register (self : HomeAssistantView) : M Registry unit :=
  match url self with
  | None => raise (AssertionError "No url set for view")
  | Some u =>
      let urls := [u] ++ extra_urls self in
      routes <-
        for_loop METHODS []
          (fun method routes =>
             match getattr (methods self) method with
             | None => ret routes                          (* continue *)
             | Some handler =>
                 handler <- lift (request_handler_factory self handler) ;;
                 for_loop urls routes
                   (fun url routes =>
                      route <- add_route method url handler ;;
                      ret (routes ++ [route]))
             end) ;;
      if negb (cors_allowed self) then ret tt
      else for_loop routes tt (fun route _ => allow_cors route)
  end.

(* ================================================================== *)
(** ** Reading JSON back: [json.loads] on a response body

    Not part of the module: the reader that the round-trip property of
    [json_message] is stated with.  It follows [json.decoder] (strict mode);
    number literals with a fraction or an exponent are left out, and [None]
    stands for them as for a text that [json.loads] rejects. *)



Definition is_ws (c : codepoint) : bool :=
  (c =? 32) || (c =? 9) || (c =? 10) || (c =? 13).

Fixpoint skip_ws (s : pystr) : pystr :=
  match s with
  | c :: s' => if is_ws c then skip_ws s' else s
  | [] => []
  end.

Definition hex_value (c : codepoint) : option Z :=
  if (48 <=? c) && (c <=? 57) then Some (c - 48)
  else if (97 <=? c) && (c <=? 102) then Some (c - 87)
  else if (65 <=? c) && (c <=? 70) then Some (c - 55)
  else None.

(** [_decode_uXXXX] *)
Definition hex4 (s : pystr) : option (Z * pystr) :=
  match s with
  | a :: b :: c :: d :: rest =>
      match hex_value a, hex_value b, hex_value c, hex_value d with
      | Some a, Some b, Some c, Some d =>
          Some (((a * 16 + b) * 16 + c) * 16 + d, rest)
      | _, _, _, _ => None
      end
  | _ => None
  end.

(** [BACKSLASH] of [json.decoder] *)
Definition short_escape (e : codepoint) : option codepoint :=
  if e =? 34 then Some 34
  else if e =? 92 then Some 92
  else if e =? 47 then Some 47
  else if e =? 98 then Some 8
  else if e =? 102 then Some 12
  else if e =? 110 then Some 10
  else if e =? 114 then Some 13
  else if e =? 116 then Some 9
  else None.

(** [py_scanstring], after the opening quote; [acc] is the text read so far,
    last character first. *)
Fixpoint scanstring (fuel : nat) (s : pystr) (acc : pystr)
  : option (pystr * pystr) :=
  match fuel, s with
  | O, _ | _, [] => None
  | S fuel', c :: rest =>
      if c =? 34 then Some (rev acc, rest)
      else if c =? 92 then
        match rest with
        | [] => None
        | e :: rest1 =>
            if e =? 117 then
              match hex4 rest1 with
              | None => None
              | Some (uni, rest2) =>
                  if (0xD800 <=? uni) && (uni <=? 0xDBFF) then
                    match rest2 with
                    | b :: u :: rest3 =>
                        if (b =? 92) && (u =? 117) then
                          match hex4 rest3 with
                          | None => None
                          | Some (uni2, rest4) =>
                              if (0xDC00 <=? uni2) && (uni2 <=? 0xDFFF) then
                                scanstring fuel' rest4
                                  (0x10000
                                   + Z.lor (Z.shiftl (uni - 0xD800) 10)
                                           (uni2 - 0xDC00)
                                   :: acc)
                              else scanstring fuel' rest2 (uni :: acc)
                          end
                        else scanstring fuel' rest2 (uni :: acc)
                    | _ => scanstring fuel' rest2 (uni :: acc)
                    end
                  else scanstring fuel' rest2 (uni :: acc)
              end
            else
              match short_escape e with
              | Some ch => scanstring fuel' rest1 (ch :: acc)
              | None => None
              end
        end
      else if c <? 32 then None
      else scanstring fuel' rest (c :: acc)
  end.

Definition is_digit (c : codepoint) : bool := (48 <=? c) && (c <=? 57).

Fixpoint digits (s : pystr) (acc : Z) : Z * pystr :=
  match s with
  | c :: s' => if is_digit c then digits s' (acc * 10 + (c - 48)) else (acc, s)
  | [] => (acc, [])
  end.

(** Whether a fraction or an exponent follows the integer part. *)
Definition float_follows (s : pystr) : bool :=
  match s with
  | c :: d :: s' =>
      if c =? 46 then is_digit d
      else if (c =? 101) || (c =? 69) then
        is_digit d
        || (((d =? 43) || (d =? 45))
            && match s' with d' :: _ => is_digit d' | [] => false end)
      else false
  | _ => false
  end.

(** [NUMBER_RE], integers only: an optional sign (read by the caller), then
    either a single zero or a non-zero digit and more digits. *)
Definition scan_integer (s : pystr) : option (Z * pystr) :=
  match s with
  | c :: s' =>
      if c =? 48 then if float_follows s' then None else Some (0, s')
      else if is_digit c then
        let '(n, rest) := digits s 0 in
        if float_follows rest then None else Some (n, rest)
      else None
  | [] => None
  end.

Fixpoint strip_prefix (p s : pystr) : option pystr :=
  match p, s with
  | [], _ => Some s
  | x :: p', y :: s' => if x =? y then strip_prefix p' s' else None
  | _ :: _, [] => None
  end.

(** The first of the literals that the text starts with. *)
Fixpoint scan_literal (table : list (string * pyval)) (s : pystr)
  : option (pyval * pystr) :=
  match table with
  | [] => None
  | (word, v) :: table' =>
      match strip_prefix (lit word) s with
      | Some rest => Some (v, rest)
      | None => scan_literal table' s
      end
  end.

Definition LITERALS : list (string * pyval) :=
  [("null", PyNone); ("true", PyBool true); ("false", PyBool false);
   ("NaN", PyFloat FNaN); ("Infinity", PyFloat (FInf false));
   ("-Infinity", PyFloat (FInf true))]%string.

(** [JSONArray], after ["["] and the white space that follows it;
    [scan_once] reads one value. *)
Fixpoint scan_elements (scan_once : pystr -> option (pyval * pystr))
    (fuel : nat) (s : pystr) (acc : list pyval) : option (list pyval * pystr) :=
  match fuel with
  | O => None
  | S fuel' =>
      match scan_once s with
      | None => None
      | Some (v, rest) =>
          match skip_ws rest with
          | c :: rest' =>
              if c =? 93 then Some (rev (v :: acc), rest')
              else if c =? 44 then
                scan_elements scan_once fuel' (skip_ws rest') (v :: acc)
              else None
          | [] => None
          end
      end
  end.

(** [JSONObject], at the quote that opens a key. *)
Fixpoint scan_members (scan_once : pystr -> option (pyval * pystr))
    (fuel : nat) (s : pystr) (acc : list (pystr * pyval))
  : option (list (pystr * pyval) * pystr) :=
  match fuel, s with
  | O, _ | _, [] => None
  | S fuel', q :: s' =>
      if negb (q =? 34) then None
      else
        match scanstring (S (List.length s')) s' [] with
        | None => None
        | Some (key, rest) =>
            match skip_ws rest with
            | colon :: rest1 =>
                if negb (colon =? 58) then None
                else
                  match scan_once (skip_ws rest1) with
                  | None => None
                  | Some (v, rest2) =>
                      let acc' := dict_setitem acc key v in
                      match skip_ws rest2 with
                      | c :: rest3 =>
                          if c =? 125 then Some (acc', rest3)
                          else if c =? 44 then
                            scan_members scan_once fuel' (skip_ws rest3) acc'
                          else None
                      | [] => None
                      end
                  end
            | [] => None
            end
        end
  end.

(** [scan_once] of [json.scanner] *)
Fixpoint scan_once (fuel : nat) (s : pystr) : option (pyval * pystr) :=
  match fuel, s with
  | O, _ | _, [] => None
  | S fuel', c :: rest =>
      if c =? 34 then
        match scanstring (S (List.length rest)) rest [] with
        | Some (text, rest') => Some (PyStr text, rest')
        | None => None
        end
      else if c =? 123 then
        match skip_ws rest with
        | c' :: rest' =>
            if c' =? 125 then Some (PyDict [], rest')
            else
              match scan_members (scan_once fuel') (List.length rest)
                                 (skip_ws rest) [] with
              | Some (items, rest'') => Some (PyDict items, rest'')
              | None => None
              end
        | [] => None
        end
      else if c =? 91 then
        match skip_ws rest with
        | c' :: rest' =>
            if c' =? 93 then Some (PyList [], rest')
            else
              match scan_elements (scan_once fuel') (List.length rest)
                                  (skip_ws rest) [] with
              | Some (items, rest'') => Some (PyList items, rest'')
              | None => None
              end
        | [] => None
        end
      else
        match scan_literal LITERALS s with
        | Some r => Some r
        | None =>
            if c =? 45 then
              match scan_integer rest with
              | Some (n, rest') => Some (PyInt (- n), rest')
              | None => None
              end
            else
              match scan_integer s with
              | Some (n, rest') => Some (PyInt n, rest')
              | None => None
              end
        end
  end.




(* ================================================================== *)
(** ** Vocabulary of the statements *)

Unset Implicit Arguments.

(** What lines 126-129 leave in [result]: what the call gave, or, when that is
    a coroutine, what awaiting it gave. *)
Definition completion_of (handler : Handler) (request : Request)
  : outcome pyval :=
  match call handler request (match_info request) with
  | Return (PyCoroutine completion) => completion
  | o => o
  end.

(** Whether the call gave a coroutine. *)
Definition gives_coroutine (handler : Handler) (request : Request) : bool :=
  match call handler request (match_info request) with
  | Return v => iscoroutine v
  | Raise _ => false
  end.

(** The events of a request that reaches the handler: the debug line, the
    call with the request and its path parameters, and the wait for the
    coroutine when there is one. *)
Definition serving_events (handler : Handler) (request : Request) : trace :=
  [LogDebug (path request) (real_ip request) (get_authenticated request);
   Called request (match_info request)]
  ++ (if gives_coroutine handler request then [Awaited] else []).

(** Lines 130-157 once the handler has completed with [o]. *)
Definition answer (o : outcome pyval) : M trace Response :=
  result <- try_except (lift o) translate ;;
  normalize result.

(** An exception that is not one of aiohttp's HTTP answers. *)
Definition fatal (e : exn) : Prop := http_status e = None.

(** How many times a handler was called. *)
Fixpoint invocations (t : trace) : nat :=
  match t with
  | [] => O
  | Called _ _ :: t' => S (invocations t')
  | _ :: t' => invocations t'
  end.

(** The routes of the methods [ms] of a view whose primary URL is [u]: each
    method that the view has, with each URL pattern (the primary one, then the
    alternates), bound to the adapted handler. *)
Definition routes_for (self : HomeAssistantView) (u : string)
    (ms : list string) : list Route :=
  flat_map
    (fun method =>
       match getattr (methods self) method with
       | Some handler =>
           map (fun url => mkRoute method url (handle self handler))
               (u :: extra_urls self)
       | None => []
       end)
    ms.

(** The routes that the specification lists for a view: those of the seven
    recognized methods. *)
Definition expected_routes (self : HomeAssistantView) (u : string) : list Route :=
  routes_for self u METHODS.




(** Values other than tuples, lists and dictionaries. *)
Definition atomic (o : pyval) : Prop :=
  match o with
  | PyTuple _ | PyList _ | PyDict _ => False
  | _ => True
  end.

(** Induction on values, through the items of tuples, lists and
    dictionaries. *)
Section pyval_induction.
Variable P : pyval -> Prop.
Hypothesis P_atomic : forall o, atomic o -> P o.
Hypothesis P_tuple : forall items, Forall P items -> P (PyTuple items).
Hypothesis P_list : forall items, Forall P items -> P (PyList items).
Hypothesis P_dict :
  forall items, Forall (fun kv => P (snd kv)) items -> P (PyDict items).

End pyval_induction.





(** Error translation, in the words of the specification; [r] is what the
    adapter gives when the handler has raised [e]. *)
Definition error_translation (e : exn) (r : outcome Response) : Prop :=
  (e = vol_Invalid ->
     r = Raise HTTPBadRequest /\ http_status HTTPBadRequest = Some 400)
  /\ (e = ServiceNotFound ->
        r = Raise HTTPInternalServerError
        /\ http_status HTTPInternalServerError = Some 500)
  /\ (e = Unauthorized ->
        r = Raise HTTPUnauthorized /\ http_status HTTPUnauthorized = Some 401)
  /\ (e <> vol_Invalid -> e <> ServiceNotFound -> e <> Unauthorized ->
      r = Raise e).

(** The body of the loop over the methods in [register]: lines 85-93, for a
    view whose primary URL is [u]. *)
Definition register_method (self : HomeAssistantView) (u : string)
    (method : string) (routes : list Route) : M Registry (list Route) :=
  match getattr (methods self) method with
  | None => ret routes
  | Some handler =>
      handler <- lift (request_handler_factory self handler) ;;
      for_loop ([u] ++ extra_urls self) routes
        (fun url routes =>
           route <- add_route method url handler ;;
           ret (routes ++ [route]))
  end.

(** The routes that a call of [register] put into the router: what the table
    holds after the call, past what it held before. *)
Definition added_routes (self : HomeAssistantView) (st : Registry) : list Route :=
  skipn (List.length (routes st)) (routes (fst (register self st))).

(** A route of a view: one of the seven methods, for which the view has a
    handler, one of the URL patterns of the view, and the adapter of that
    handler. *)
Definition route_of_view (self : HomeAssistantView) (r : Route) : Prop :=
  In (route_method r) METHODS
  /\ (exists u, url self = Some u /\ In (route_path r) (u :: extra_urls self))
  /\ (exists handler,
        getattr (methods self) (route_method r) = Some handler
        /\ route_handler r = handle self handler).

(** The recognized methods for which a view has a handler. *)
Definition present_methods (self : HomeAssistantView) : list string :=
  filter (fun method =>
            match getattr (methods self) method with
            | Some _ => true
            | None => false
            end)
         METHODS.

(** Whether the adapter lets a request through to the handler: lines 110-116. *)
Definition served (view : HomeAssistantView) (request : Request) : bool :=
  is_running request
  && (negb (requires_auth view) || get_authenticated request).

(** The exceptions of the handlers that the adapter translates. *)
Definition internal (e : exn) : Prop :=
  e = vol_Invalid \/ e = ServiceNotFound \/ e = Unauthorized.


(** Sample data of the examples. *)
Module Sample.
Definition ok_handler : Handler :=
  mkHandler true false (fun _ _ => Return (PyCoroutine (Return (PyStr (lit "ok"))))).
Definition callback_handler : Handler :=
  mkHandler false true (fun _ _ => Return (PyTuple [PyNone; PyInt 201])).
Definition plain_handler : Handler :=
  mkHandler false false (fun _ _ => Return PyNone).
Definition failing_handler (e : exn) : Handler :=
  mkHandler true false (fun _ _ => Return (PyCoroutine (Raise e))).
Definition view : HomeAssistantView :=
  mkView (Some "/api/sample"%string) ["/api/sample/{id}"%string] true true
         [("get"%string, ok_handler); ("post"%string, callback_handler)].
Definition open_view : HomeAssistantView :=
  mkView (Some "/api/open"%string) [] false false [("get"%string, ok_handler)].
Definition plain_view : HomeAssistantView :=
  mkView (Some "/api/plain"%string) [] true false [("get"%string, plain_handler)].
Definition no_url_view : HomeAssistantView :=
  mkView None ["/api/other"%string] true true [("get"%string, ok_handler)].
Definition request (running : bool) (auth : option bool) : Request :=
  mkRequest running auth (Some "10.0.0.7"%string) "/api/sample"%string
            [("id"%string, "7"%string)].
Definition empty : Registry := mkRegistry [] [].
End Sample.

(** More sample data. *)
Module Sample2.
Definition half_plain_view : HomeAssistantView :=
  mkView (Some "/api/half"%string) ["/api/half/{id}"%string] true true
         [("get"%string, Sample.ok_handler);
          ("post"%string, Sample.plain_handler);
          ("put"%string, Sample.callback_handler)].
Definition sample_route : Route :=
  mkRoute "get" "/api/sample" (handle Sample.view Sample.ok_handler).
End Sample2.

(* ================================================================== *)
(** ** UTF-8 *)









Local Opaque Z.lor Z.land Z.shiftr Z.shiftl.


Local Transparent Z.lor Z.land Z.shiftr Z.shiftl.



(* ================================================================== *)
(** ** The adapter: readiness and authentication *)

Ltac run :=
  unfold answer, normalize, invoke, await, translate, bind, try_except, lift,
    emit, ret, raise; simpl.

Lemma get_authenticated_false (request : Request) :
  authenticated request = None \/ authenticated request = Some false ->
  get_authenticated request = false.
Proof.
  unfold get_authenticated. intros [-> | ->]; reflexivity.
Qed.

Lemma passes_auth (view : HomeAssistantView) (request : Request) :
  requires_auth view = false \/ authenticated request = Some true ->
  requires_auth view && negb (get_authenticated request) = false.
Proof.
  unfold get_authenticated. intros [-> | ->]; simpl.
  - reflexivity.
  - apply andb_false_r.
Qed.

(** A request that passes both checks: the debug line, the call, the wait if
    the call gave a coroutine, then lines 130-157 on what the handler completed
    with. *)
Lemma handle_serving (view : HomeAssistantView) (handler : Handler)
    (request : Request) (t : trace) :
  is_running request = true ->
  requires_auth view && negb (get_authenticated request) = false ->
  handle view handler request t
  = answer (completion_of handler request)
           (t ++ serving_events handler request).
Proof.
  intros Hrun Hauth.
  unfold handle. rewrite Hrun, Hauth. simpl.
  unfold serving_events, completion_of, gives_coroutine.
  destruct (call handler request (match_info request)) as [v | e] eqn:Hcall.
  - destruct v; run; rewrite Hcall; simpl;
      rewrite <- ?app_assoc; reflexivity.
  - run. rewrite Hcall. simpl. rewrite <- app_assoc. reflexivity.
Qed.

(** C1.  When the application is not running, the adapted handler answers
    with status 503 whatever the view and the handler are, and nothing else
    happens: the trace is left as it was, so there is no authentication
    failure, no log line and no call of the handler. *)
Theorem not_running_gives_503 (view : HomeAssistantView) (handler : Handler)
    (request : Request) (t : trace) :
  is_running request = false ->
  exists response,
    handle view handler request t = (t, Return response)
    /\ status response = PyInt 503
    /\ invocations (fst (handle view handler request t)) = invocations t.
Proof.
  intros Hrun. exists (web_Response None (PyInt 503) None None).
  unfold handle. rewrite Hrun. simpl. repeat split.
Qed.

Lemma not_running_gives_503_witness :
  exists response,
    handle Sample.view Sample.ok_handler (Sample.request false (Some true)) []
    = ([], Return response)
    /\ status response = PyInt 503
    /\ invocations
         (fst (handle Sample.view Sample.ok_handler
                      (Sample.request false (Some true)) []))
       = invocations [].
Proof.
  apply (@not_running_gives_503 Sample.view Sample.ok_handler
           (Sample.request false (Some true)) []).
  reflexivity.
Defined.

(** C2, as the code has it.  When the application is running, a request to a
    view that requires authentication whose authenticated flag is absent or
    false ends in the unauthorized condition, HTTP 401, and the handler is not
    called: the trace is left as it was. *)
Theorem unauthenticated_gives_401 (view : HomeAssistantView) (handler : Handler)
    (request : Request) (t : trace) :
  is_running request = true ->
  requires_auth view = true ->
  authenticated request = None \/ authenticated request = Some false ->
  handle view handler request t = (t, Raise HTTPUnauthorized)
  /\ http_status HTTPUnauthorized = Some 401
  /\ invocations (fst (handle view handler request t)) = invocations t.
Proof.
  intros Hrun Hreq Hauth.
  apply get_authenticated_false in Hauth.
  unfold handle. rewrite Hrun, Hreq, Hauth. simpl. repeat split.
Qed.

Lemma unauthenticated_gives_401_witness :
  handle Sample.view Sample.ok_handler (Sample.request true None) []
  = ([], Raise HTTPUnauthorized)
  /\ http_status HTTPUnauthorized = Some 401
  /\ invocations
       (fst (handle Sample.view Sample.ok_handler (Sample.request true None) []))
     = invocations [].
Proof.
  apply (@unauthenticated_gives_401 Sample.view Sample.ok_handler
           (Sample.request true None) []).
  - reflexivity.
  - reflexivity.
  - left. reflexivity.
Defined.

(** C2 as it is written fails when the application is not running: the view
    requires authentication and the request carries no authenticated flag, yet
    the answer is the 503 response, not the unauthorized condition. *)
Lemma unauthenticated_not_running_is_503 :
  requires_auth Sample.view = true
  /\ authenticated (Sample.request false None) = None
  /\ handle Sample.view Sample.ok_handler (Sample.request false None) []
     = ([], Return (web_Response None (PyInt 503) None None))
  /\ snd (handle Sample.view Sample.ok_handler (Sample.request false None) [])
     <> Raise HTTPUnauthorized.
Proof.
  repeat split. simpl. discriminate.
Qed.

(* ================================================================== *)
(** ** The adapter: invocation, error translation, normalization *)

Lemma answer_keeps_trace (o : outcome pyval) (t : trace) :
  fst (answer o t) = t.
Proof.
  destruct o as [v | e]; run.
  - destruct v; simpl; try reflexivity.
    + destruct (str_encode s); reflexivity.
    + destruct (unpack2 items) as [[a b] | e]; simpl; try reflexivity.
      destruct (to_bytes a); reflexivity.
  - destruct e; reflexivity.
Qed.




Lemma answer_exception (e : exn) (t : trace) :
  error_translation e (snd (answer (Raise e) t)).
Proof.
  unfold error_translation.
  split; [|split; [|split]]; try (intros ->; split; reflexivity).
  intros H1 H2 H3. destruct e; try reflexivity; contradiction.
Qed.



(** The three results that the specification lists as tests. *)
Example pair_gives_its_status :
  handle Sample.view Sample.callback_handler (Sample.request true (Some true)) []
  = ([LogDebug "/api/sample" (Some "10.0.0.7"%string) true;
      Called (Sample.request true (Some true)) [("id", "7")]]%string,
     Return (web_Response (Some []) (PyInt 201) None None)).
Proof. reflexivity. Qed.

Example text_gives_utf8_and_200 :
  handle Sample.open_view Sample.ok_handler (Sample.request true None) []
  = ([LogDebug "/api/sample" (Some "10.0.0.7"%string) false;
      Called (Sample.request true None) [("id", "7")];
      Awaited]%string,
     Return (web_Response (Some ["o"%byte; "k"%byte]) (PyInt 200) None None)).
Proof. reflexivity. Qed.

Example none_gives_empty_and_200 :
  snd (answer (Return PyNone) [])
  = Return (web_Response (Some []) (PyInt 200) None None).
Proof. reflexivity. Qed.

(** C4.  When calling the handler, or awaiting what it returned, raises: a
    validation error becomes HTTP 400, a missing service HTTP 500, the
    unauthorized condition HTTP 401, and any other exception leaves the
    adapter as it is. *)
Theorem handler_exception_translated (view : HomeAssistantView)
    (handler : Handler) (request : Request) (t : trace) (e : exn) :
  is_running request = true ->
  requires_auth view = false \/ authenticated request = Some true ->
  completion_of handler request = Raise e ->
  error_translation e (snd (handle view handler request t)).
Proof.
  intros Hrun Hauth He.
  rewrite (@handle_serving view handler request t Hrun
             (@passes_auth view request Hauth)), He.
  apply answer_exception.
Qed.

Lemma handler_exception_translated_witness :
  error_translation vol_Invalid
    (snd (handle Sample.view (Sample.failing_handler vol_Invalid)
                 (Sample.request true (Some true)) [])).
Proof.
  apply (@handler_exception_translated Sample.view
           (Sample.failing_handler vol_Invalid)
           (Sample.request true (Some true)) []).
  - reflexivity.
  - right. reflexivity.
  - reflexivity.
Defined.

Example validation_error_gives_400 :
  snd (handle Sample.view (Sample.failing_handler vol_Invalid)
              (Sample.request true (Some true)) [])
  = Raise HTTPBadRequest.
Proof. reflexivity. Qed.

Example other_exception_propagates :
  snd (handle Sample.view (Sample.failing_handler (OtherException "KeyError"))
              (Sample.request true (Some true)) [])
  = Raise (OtherException "KeyError").
Proof. reflexivity. Qed.

Lemma invocations_app (a b : trace) :
  invocations (a ++ b) = (invocations a + invocations b)%nat.
Proof.
  induction a as [|[] a IH]; simpl; rewrite ?IH; reflexivity.
Qed.

(** What the adapter answers depends on what the handler completed with, not
    on the events before. *)
Lemma answer_result (o : outcome pyval) (t t' : trace) :
  snd (answer o t) = snd (answer o t').
Proof.
  destruct o as [v | e]; run.
  - destruct v; simpl; try reflexivity.
    + destruct (str_encode s); reflexivity.
    + destruct (unpack2 items) as [[a b] | e]; simpl; try reflexivity.
      destruct (to_bytes a); reflexivity.
  - destruct e; reflexivity.
Qed.

(** The three ways through [handle]. *)
Lemma handle_cases (view : HomeAssistantView) (handler : Handler)
    (request : Request) (t : trace) :
  handle view handler request t
  = if negb (is_running request) then
      (t, Return (web_Response None (PyInt 503) None None))
    else if requires_auth view && negb (get_authenticated request) then
      (t, Raise HTTPUnauthorized)
    else answer (completion_of handler request)
                (t ++ serving_events handler request).
Proof.
  destruct (is_running request) eqn:Hrun;
    [|unfold handle; rewrite Hrun; reflexivity].
  destruct (requires_auth view && negb (get_authenticated request)) eqn:Hauth.
  - unfold handle. rewrite Hrun, Hauth. reflexivity.
  - simpl. apply handle_serving; assumption.
Qed.

(** A request that passes both checks calls the handler exactly once. *)
Lemma handle_invocations (view : HomeAssistantView) (handler : Handler)
    (request : Request) (t : trace) :
  is_running request = true ->
  requires_auth view && negb (get_authenticated request) = false ->
  invocations (fst (handle view handler request t)) = S (invocations t).
Proof.
  intros Hrun Hauth.
  rewrite (handle_serving _ _ _ _ Hrun Hauth), answer_keeps_trace, invocations_app.
  unfold serving_events. simpl.
  destruct (gives_coroutine handler request); simpl; lia.
Qed.

(** C9, as the code has it.  The factory accepts a handler that is a
    coroutine function or is marked as a callback, and then gives [handle].
    For a request that passes the two checks, [handle] calls the handler once,
    with the request and the path parameters as keyword arguments, waits for
    the coroutine if the call gave one, and only then goes on, with what the
    handler completed with.  A callback and a coroutine function that complete
    alike are answered alike. *)
Theorem accepted_handler_forms (view : HomeAssistantView) (handler : Handler) :
  iscoroutinefunction handler = true \/ is_callback handler = true ->
  request_handler_factory view handler = Return (handle view handler)
  /\ (forall request t,
        is_running request = true ->
        requires_auth view = false \/ authenticated request = Some true ->
        handle view handler request t
        = answer (completion_of handler request)
                 (t ++ serving_events handler request)
        /\ fst (handle view handler request t)
           = t ++ serving_events handler request
        /\ invocations (fst (handle view handler request t))
           = S (invocations t))
  /\ (forall f request t,
        (forall c, f request (match_info request) <> Return (PyCoroutine c)) ->
        snd (handle view
               (mkHandler true false (fun r kw => Return (PyCoroutine (f r kw))))
               request t)
        = snd (handle view (mkHandler false true f) request t)).
Proof.
  intros Hform. split; [|split].
  - unfold request_handler_factory.
    destruct Hform as [-> | ->]; [|rewrite orb_true_r]; reflexivity.
  - intros request t Hrun Hauth.
    pose proof (@handle_serving view handler request t Hrun
                  (@passes_auth view request Hauth)) as Hs.
    split; [exact Hs|]. split.
    + rewrite Hs. apply answer_keeps_trace.
    + apply handle_invocations; [exact Hrun | exact (passes_auth _ _ Hauth)].
  - intros f request t Hsync.
    rewrite !handle_cases.
    destruct (negb (is_running request)); [reflexivity|].
    destruct (requires_auth view && negb (get_authenticated request));
      [reflexivity|].
    rewrite (answer_result _ _ t), (answer_result _ (t ++ _) t).
    f_equal. f_equal. unfold completion_of. simpl.
    destruct (f request (match_info request)) as [v | e] eqn:Hf;
      [|reflexivity].
    destruct v; try reflexivity.
    exfalso. eapply Hsync. reflexivity.
Qed.

Lemma accepted_handler_forms_witness :
  request_handler_factory Sample.view Sample.ok_handler
  = Return (handle Sample.view Sample.ok_handler)
  /\ (forall request t,
        is_running request = true ->
        requires_auth Sample.view = false \/ authenticated request = Some true ->
        handle Sample.view Sample.ok_handler request t
        = answer (completion_of Sample.ok_handler request)
                 (t ++ serving_events Sample.ok_handler request)
        /\ fst (handle Sample.view Sample.ok_handler request t)
           = t ++ serving_events Sample.ok_handler request
        /\ invocations (fst (handle Sample.view Sample.ok_handler request t))
           = S (invocations t))
  /\ (forall f request t,
        (forall c, f request (match_info request) <> Return (PyCoroutine c)) ->
        snd (handle Sample.view
               (mkHandler true false (fun r kw => Return (PyCoroutine (f r kw))))
               request t)
        = snd (handle Sample.view (mkHandler false true f) request t)).
Proof.
  apply (@accepted_handler_forms Sample.view Sample.ok_handler).
  left. reflexivity.
Defined.

(** C9 as it is written fails for a plain function: a handler that can be
    called and returns [None], but is neither a coroutine function nor marked
    as a callback, is refused by the factory, and registering a view that has
    it fails in the same way. *)
Lemma plain_function_is_refused :
  call Sample.plain_handler (Sample.request true (Some true)) [] = Return PyNone
  /\ request_handler_factory Sample.plain_view Sample.plain_handler
     = Raise (AssertionError "Handler should be a coroutine or a callback.")
  /\ (forall wrapped,
        request_handler_factory Sample.plain_view Sample.plain_handler
        <> Return wrapped).
Proof.
  split; [reflexivity|]. split; [reflexivity|].
  intros wrapped. discriminate.
Qed.

(** C10.  The base class requires authentication, does not allow
    cross-origin requests, and has no primary URL and no alternate URLs.  So a
    view that keeps the flag is closed to a request without the authenticated
    flag (HTTP 401 while the application runs), and only a view that sets
    [requires_auth] to false lets such a request reach its handler. *)
Theorem base_view_defaults :
  requires_auth base_view = true
  /\ cors_allowed base_view = false
  /\ url base_view = None
  /\ extra_urls base_view = []
  /\ (forall u more cors_flag handlers handler ip p kwargs t,
        handle (mkView u more (requires_auth base_view) cors_flag handlers)
               handler (mkRequest true None ip p kwargs) t
        = (t, Raise HTTPUnauthorized))
  /\ (forall u more cors_flag handlers handler ip p kwargs t,
        invocations
          (fst (handle (mkView u more false cors_flag handlers)
                       handler (mkRequest true None ip p kwargs) t))
        = S (invocations t)).
Proof.
  do 4 (split; [reflexivity|]).
  split.
  - intros. reflexivity.
  - intros. apply handle_invocations; reflexivity.
Qed.

(* ================================================================== *)
(** ** Registration *)

Lemma bind_step {S A B} (m : M S A) (k : A -> M S B) (s s' : S) (a : A) :
  m s = (s', Return a) -> bind m k s = k a s'.
Proof.
  intros H. unfold bind. rewrite H. reflexivity.
Qed.

Lemma for_loop_cons {S A B} (x : A) (l : list A) (acc : B)
    (body : A -> B -> M S B) :
  for_loop (x :: l) acc body
  = (acc' <- body x acc ;; for_loop l acc' body).
Proof. reflexivity. Qed.

(** The loop over the URL patterns adds one route for each, in order. *)
Lemma for_urls (method : string) (wrapped : Request -> M trace Response)
    (urls : list string) (acc : list Route) (st : Registry) :
  for_loop urls acc
    (fun url routes =>
       route <- add_route method url wrapped ;;
       ret (routes ++ [route])) st
  = (mkRegistry
       (routes st ++ map (fun url => mkRoute method url wrapped) urls)
       (cors st),
     Return (acc ++ map (fun url => mkRoute method url wrapped) urls)).
Proof.
  revert acc st.
  induction urls as [|url urls IH]; intros acc st.
  - simpl. unfold ret. rewrite !app_nil_r. destruct st; reflexivity.
  - rewrite for_loop_cons.
    erewrite bind_step by reflexivity.
    rewrite IH. simpl. rewrite <- !app_assoc. reflexivity.
Qed.

(** The loop over the methods, when the factory accepts every handler that
    the view has for them. *)
Lemma for_methods (self : HomeAssistantView) (u : string) (ms : list string)
    (acc : list Route) (st : Registry) :
  (forall method handler,
     In method ms -> getattr (methods self) method = Some handler ->
     iscoroutinefunction handler || is_callback handler = true) ->
  for_loop ms acc
    (fun method routes =>
       match getattr (methods self) method with
       | None => ret routes
       | Some handler =>
           handler <- lift (request_handler_factory self handler) ;;
           for_loop ([u] ++ extra_urls self) routes
             (fun url routes =>
                route <- add_route method url handler ;;
                ret (routes ++ [route]))
       end) st
  = (mkRegistry (routes st ++ routes_for self u ms) (cors st),
     Return (acc ++ routes_for self u ms)).
Proof.
  revert acc st.
  induction ms as [|method ms IH]; intros acc st Hok.
  - simpl. unfold ret. rewrite !app_nil_r. destruct st; reflexivity.
  - rewrite for_loop_cons.
    assert (Hms : forall m h, In m ms -> getattr (methods self) m = Some h ->
                              iscoroutinefunction h || is_callback h = true)
      by (intros m h Hin; apply Hok; right; exact Hin).
    cbn [routes_for flat_map].
    destruct (getattr (methods self) method) as [handler|] eqn:Hget.
    + erewrite bind_step.
      2: { erewrite bind_step.
           2: { unfold lift, request_handler_factory.
                rewrite (Hok method handler (or_introl eq_refl) Hget).
                reflexivity. }
           apply for_urls. }
      rewrite (IH _ _ Hms). simpl. rewrite <- !app_assoc. reflexivity.
    + erewrite bind_step by reflexivity.
      rewrite (IH _ _ Hms). reflexivity.
Qed.

(** The loop over the created routes calls the callback on each, in order. *)
Lemma for_routes (rs : list Route) (st : Registry) :
  for_loop rs tt (fun route _ => allow_cors route) st
  = (mkRegistry (routes st) (cors st ++ rs), Return tt).
Proof.
  revert st. induction rs as [|r rs IH]; intros st.
  - simpl. unfold ret. rewrite app_nil_r. destruct st; reflexivity.
  - rewrite for_loop_cons.
    erewrite bind_step by reflexivity.
    rewrite IH. simpl. rewrite <- app_assoc. reflexivity.
Qed.

(** C7, as the code has it.  For a view with a primary URL, all of whose
    method handlers are coroutine functions or callbacks, [register] adds to
    the router one route for each of the seven methods that the view has and
    each URL pattern (the primary one, then the alternates), bound to the
    adapted handler; it calls the allow-CORS callback once on each of these
    routes, in order, exactly when the view's [cors_allowed] flag is true; and
    it returns no value. *)
Theorem register_adds_routes (self : HomeAssistantView) (u : string)
    (st : Registry) :
  url self = Some u ->
  (forall method handler,
     In method METHODS -> getattr (methods self) method = Some handler ->
     iscoroutinefunction handler = true \/ is_callback handler = true) ->
  register self st
  = (mkRegistry
       (routes st ++ expected_routes self u)
       (cors st ++ (if cors_allowed self then expected_routes self u else [])),
     Return tt).
Proof.
  intros Hurl Hok.
  unfold register. rewrite Hurl.
  erewrite bind_step.
  2: { apply for_methods. intros method handler Hin Hget.
       apply orb_true_iff. exact (Hok method handler Hin Hget). }
  fold (expected_routes self u).
  destruct (cors_allowed self); cbn [negb].
  - rewrite for_routes. reflexivity.
  - unfold ret. rewrite app_nil_r. reflexivity.
Qed.

Lemma register_adds_routes_witness :
  register Sample.view Sample.empty
  = (mkRegistry
       (routes Sample.empty ++ expected_routes Sample.view "/api/sample")
       (cors Sample.empty
        ++ (if cors_allowed Sample.view
            then expected_routes Sample.view "/api/sample" else [])),
     Return tt).
Proof.
  apply (register_adds_routes Sample.view "/api/sample" Sample.empty).
  - reflexivity.
  - intros method handler Hin Hget.
    simpl in Hin.
    repeat (destruct Hin as [<- | Hin];
            [simpl in Hget; try discriminate;
             injection Hget as <-; auto |]).
    contradiction.
Defined.

(** The sample view has two methods and two URL patterns: four routes, in the
    order of the methods and then of the patterns, and four calls of the
    callback. *)
Example register_sample :
  let st := fst (register Sample.view Sample.empty) in
  map (fun r => (route_method r, route_path r)) (routes st)
  = [("get", "/api/sample"); ("get", "/api/sample/{id}");
     ("post", "/api/sample"); ("post", "/api/sample/{id}")]%string
  /\ cors st = routes st.
Proof. split; reflexivity. Qed.

(** C7 as it is written fails for a view whose handler the factory refuses:
    the view has a primary URL and a [get] handler, and [register] raises
    without adding a route. *)
Lemma register_refuses_plain_function :
  url Sample.plain_view = Some "/api/plain"%string
  /\ getattr (methods Sample.plain_view) "get" = Some Sample.plain_handler
  /\ register Sample.plain_view Sample.empty
     = (Sample.empty,
        Raise (AssertionError "Handler should be a coroutine or a callback."))
  /\ snd (register Sample.plain_view Sample.empty) <> Return tt.
Proof.
  repeat split. simpl. discriminate.
Qed.

(** C8, as the code has it.  For a view without a primary URL, [register]
    fails with the assertion error "No url set for view", and the router and
    the CORS registrations are left as they were. *)
Theorem register_without_url (self : HomeAssistantView) (st : Registry) :
  url self = None ->
  register self st = (st, Raise (AssertionError "No url set for view"))
  /\ fatal (AssertionError "No url set for view").
Proof.
  intros Hurl. unfold register. rewrite Hurl. split; reflexivity.
Qed.

Lemma register_without_url_witness :
  register Sample.no_url_view Sample.empty
  = (Sample.empty, Raise (AssertionError "No url set for view"))
  /\ fatal (AssertionError "No url set for view").
Proof.
  apply (register_without_url Sample.no_url_view Sample.empty).
  reflexivity.
Defined.

(** C8 as it is written names the wrong failure: what [register] raises for
    a view without a primary URL is an [AssertionError], not an exception of a
    class [ConfigurationError]. *)
Lemma register_without_url_is_assertion :
  url Sample.no_url_view = None
  /\ (exists e,
        snd (register Sample.no_url_view Sample.empty) = Raise e
        /\ class_name e = "AssertionError"%string
        /\ class_name e <> "ConfigurationError"%string).
Proof.
  split; [reflexivity|].
  exists (AssertionError "No url set for view").
  repeat split. simpl. discriminate.
Qed.

(* ================================================================== *)
(** ** The order of keys *)

Lemma str_leb_refl (a : pystr) : str_leb a a = true.
Proof.
  induction a as [|x a IH]; simpl; [reflexivity|].
  rewrite Z.ltb_irrefl. exact IH.
Qed.




Section Sorting.
Context {V : Type}.
Implicit Types (kv : pystr * V) (l : list (pystr * V)).






End Sorting.

(* ================================================================== *)
(** ** The encoder *)




















(* ================================================================== *)
(** ** Reading back what the encoder wrote *)












Section reading_members.
#[local] Arguments scanstring : simpl never.
#[local] Arguments skip_ws : simpl never.
#[local] Arguments scan_once : simpl never.
#[local] Arguments scan_members : simpl never.






End reading_members.

(* ================================================================== *)
(** ** The JSON helpers *)





(** A NaN, an infinity, and a value that JSON cannot carry. *)
Example json_nan :
  json (PyDict [(lit "temperature", PyFloat FNaN)]) 200 None []
  = ([LogError (ValueError "Out of range float values are not JSON compliant")
               (PyDict [(lit "temperature", PyFloat FNaN)])],
     Raise HTTPInternalServerError).
Proof. reflexivity. Qed.

Example json_bytes :
  snd (json (PyList [PyBytes []]) 200 None []) = Raise HTTPInternalServerError.
Proof. reflexivity. Qed.






(** The body itself: the keys in order, as [json.dumps] writes them. *)
Example json_message_failed_body :
  exists response,
    json_message (lit "failed") 400 (Some (lit "not_found")) None []
    = ([], Return response)
    /\ option_map (map Z_of_byte) (body response)
       = Some ([123; 34] ++ lit "code" ++ [34] ++ lit ": " ++ [34]
               ++ lit "not_found" ++ [34] ++ lit ", " ++ [34] ++ lit "message"
               ++ [34] ++ lit ": " ++ [34] ++ lit "failed" ++ [34; 125]).
Proof.
  eexists. split; [vm_compute; reflexivity|]. vm_compute. reflexivity.
Qed.

(* ================================================================== *)
(** ** Registration, in all cases *)

Lemma register_unfold (self : HomeAssistantView) (st : Registry) :
  register self st
  = match url self with
    | None => (st, Raise (AssertionError "No url set for view"))
    | Some u =>
        (routes <- for_loop METHODS [] (register_method self u) ;;
         if negb (cors_allowed self) then ret tt
         else for_loop routes tt (fun route _ => allow_cors route)) st
    end.
Proof.
  unfold register. destruct (url self); reflexivity.
Qed.

Lemma bind_raise {S A B} (m : M S A) (k : A -> M S B) (s s' : S) (e : exn) :
  m s = (s', Raise e) -> bind m k s = (s', Raise e).
Proof.
  intros H. unfold bind. rewrite H. reflexivity.
Qed.

Lemma registry_eta (st : Registry) : mkRegistry (routes st) (cors st) = st.
Proof. destruct st; reflexivity. Qed.

(** One turn of the loop over the methods: nothing for a method that the view
    does not have, the routes of the method when the factory accepts its
    handler, and the assertion error of the factory otherwise. *)
Lemma register_method_step (self : HomeAssistantView) (u method : string)
    (acc : list Route) (st : Registry) :
  register_method self u method acc st
  = match getattr (methods self) method with
    | None => (st, Return acc)
    | Some handler =>
        if iscoroutinefunction handler || is_callback handler then
          (mkRegistry (routes st ++ routes_for self u [method]) (cors st),
           Return (acc ++ routes_for self u [method]))
        else
          (st, Raise (AssertionError
                        "Handler should be a coroutine or a callback."))
    end.
Proof.
  unfold register_method.
  destruct (getattr (methods self) method) as [handler|] eqn:Hget;
    [|reflexivity].
  destruct (iscoroutinefunction handler || is_callback handler) eqn:Hok.
  - erewrite bind_step.
    2: { unfold lift, request_handler_factory. rewrite Hok. reflexivity. }
    rewrite for_urls. cbn [routes_for flat_map]. rewrite Hget, app_nil_r.
    reflexivity.
  - apply bind_raise. unfold lift, request_handler_factory.
    rewrite Hok. reflexivity.
Qed.

Lemma routes_for_app (self : HomeAssistantView) (u : string)
    (ms ms' : list string) :
  routes_for self u (ms ++ ms') = routes_for self u ms ++ routes_for self u ms'.
Proof.
  unfold routes_for. apply flat_map_app.
Qed.

(** The loop over the methods stops at the first handler that the factory
    refuses, with the routes of the methods before it in the router. *)
Lemma for_methods_any (self : HomeAssistantView) (u : string)
    (ms : list string) (acc : list Route) (st : Registry) :
  exists pre post,
    ms = pre ++ post
    /\ fst (for_loop ms acc (register_method self u) st)
       = mkRegistry (routes st ++ routes_for self u pre) (cors st)
    /\ (snd (for_loop ms acc (register_method self u) st)
        = Return (acc ++ routes_for self u pre) /\ post = []
        \/ snd (for_loop ms acc (register_method self u) st)
           = Raise (AssertionError
                      "Handler should be a coroutine or a callback.")).
Proof.
  revert acc st. induction ms as [|method ms IH]; intros acc st.
  - exists [], []. split; [reflexivity|]. simpl.
    rewrite !app_nil_r, registry_eta. split; [reflexivity|]. left. split; reflexivity.
  - rewrite for_loop_cons.
    pose proof (register_method_step self u method acc st) as Hstep.
    destruct (getattr (methods self) method) as [handler|] eqn:Hget.
    + destruct (iscoroutinefunction handler || is_callback handler) eqn:Hok.
      * rewrite (bind_step _ _ _ _ _ Hstep).
        destruct (IH (acc ++ routes_for self u [method])
                     (mkRegistry (routes st ++ routes_for self u [method])
                                 (cors st)))
          as (pre & post & -> & Hfst & Hsnd).
        exists (method :: pre), post. split; [reflexivity|].
        change (method :: pre) with ([method] ++ pre).
        rewrite routes_for_app, !app_assoc.
        split; [exact Hfst | exact Hsnd].
      * rewrite (bind_raise _ _ _ _ _ Hstep).
        exists [], (method :: ms). split; [reflexivity|].
        simpl. rewrite app_nil_r, registry_eta.
        split; [reflexivity|]. right. reflexivity.
    + rewrite (bind_step _ _ _ _ _ Hstep).
      destruct (IH acc st) as (pre & post & -> & Hfst & Hsnd).
      exists (method :: pre), post. split; [reflexivity|].
      assert (Hnone : routes_for self u (method :: pre) = routes_for self u pre).
      { unfold routes_for. cbn [flat_map]. rewrite Hget. reflexivity. }
      rewrite Hnone. split; [exact Hfst | exact Hsnd].
Qed.

Lemma routes_for_of_view (self : HomeAssistantView) (u : string)
    (ms : list string) :
  url self = Some u -> incl ms METHODS ->
  Forall (route_of_view self) (routes_for self u ms).
Proof.
  intros Hurl Hincl. apply Forall_forall. intros r Hr.
  unfold routes_for in Hr. apply in_flat_map in Hr.
  destruct Hr as (method & Hin & Hr).
  destruct (getattr (methods self) method) as [handler|] eqn:Hget;
    [|contradiction].
  apply in_map_iff in Hr. destruct Hr as (p & <- & Hp).
  split; [apply Hincl; exact Hin|]. split.
  - exists u. split; [exact Hurl | exact Hp].
  - exists handler. split; [exact Hget | reflexivity].
Qed.

(** What a call of [register] does to the router and to the CORS
    registrations, whatever the view: it appends routes of the view, and the
    CORS registrations grow by nothing or by the same routes. *)
Lemma register_appends (self : HomeAssistantView) (st : Registry) :
  exists added,
    routes (fst (register self st)) = routes st ++ added
    /\ (cors (fst (register self st)) = cors st
        \/ cors (fst (register self st)) = cors st ++ added)
    /\ Forall (route_of_view self) added.
Proof.
  rewrite register_unfold.
  destruct (url self) as [u|] eqn:Hurl.
  2: { exists []. simpl. rewrite app_nil_r. auto. }
  destruct (for_methods_any self u METHODS [] st)
    as (pre & post & Hsplit & Hfst & Hsnd).
  exists (routes_for self u pre).
  assert (Hview : Forall (route_of_view self) (routes_for self u pre)).
  { apply routes_for_of_view; [exact Hurl|].
    intros m Hm. rewrite Hsplit. apply in_or_app. left. exact Hm. }
  destruct (for_loop METHODS [] (register_method self u) st) as [st1 r] eqn:Hloop.
  simpl in Hfst, Hsnd. subst st1.
  destruct Hsnd as [[-> _] | ->].
  - erewrite bind_step by exact Hloop.
    destruct (cors_allowed self); cbn [negb].
    + rewrite for_routes. simpl. auto.
    + simpl. auto.
  - erewrite bind_raise by exact Hloop. simpl. auto.
Qed.

Lemma added_routes_spec (self : HomeAssistantView) (st : Registry)
    (added : list Route) :
  routes (fst (register self st)) = routes st ++ added ->
  added_routes self st = added.
Proof.
  intros H. unfold added_routes. rewrite H.
  rewrite skipn_app, skipn_all, Nat.sub_diag. reflexivity.
Qed.

Lemma for_loop_app {S A B} (l1 l2 : list A) (acc : B)
    (body : A -> B -> M S B) (st : S) :
  for_loop (l1 ++ l2) acc body st
  = (acc' <- for_loop l1 acc body ;; for_loop l2 acc' body) st.
Proof.
  revert acc st. induction l1 as [|x l1 IH]; intros acc st.
  - reflexivity.
  - cbn [app]. rewrite !for_loop_cons. unfold bind.
    destruct (body x acc st) as [st1 [acc1 | e]]; [|reflexivity].
    rewrite IH. reflexivity.
Qed.

(** [register] on a view all of whose handlers the factory accepts. *)
Lemma register_accepting (self : HomeAssistantView) (u : string)
    (st : Registry) :
  url self = Some u ->
  (forall method handler,
     In method METHODS -> getattr (methods self) method = Some handler ->
     iscoroutinefunction handler || is_callback handler = true) ->
  register self st
  = (mkRegistry
       (routes st ++ expected_routes self u)
       (cors st ++ (if cors_allowed self then expected_routes self u else [])),
     Return tt).
Proof.
  intros Hurl Hok.
  unfold register. rewrite Hurl.
  erewrite bind_step by (apply for_methods; exact Hok).
  fold (expected_routes self u).
  destruct (cors_allowed self); cbn [negb].
  - rewrite for_routes. reflexivity.
  - unfold ret. rewrite app_nil_r. reflexivity.
Qed.

(** X1.  Registering a view twice registers its routes twice: [register] does
    not look at what the router already holds.  The second call appends the
    same routes again after those of the first, and calls the allow-CORS
    callback on them again when the view allows cross-origin requests. *)
Theorem register_twice_duplicates (self : HomeAssistantView) (u : string)
    (st : Registry) :
  url self = Some u ->
  (forall method handler,
     In method METHODS -> getattr (methods self) method = Some handler ->
     iscoroutinefunction handler = true \/ is_callback handler = true) ->
  (register self ;; register self) st
  = (mkRegistry
       (routes st ++ expected_routes self u ++ expected_routes self u)
       (cors st ++ (if cors_allowed self
                    then expected_routes self u ++ expected_routes self u
                    else [])),
     Return tt).
Proof.
  intros Hurl Hok.
  assert (Hok' : forall method handler,
             In method METHODS -> getattr (methods self) method = Some handler ->
             iscoroutinefunction handler || is_callback handler = true).
  { intros method handler Hin Hget. apply orb_true_iff. eauto. }
  erewrite bind_step by (apply register_accepting; eassumption).
  rewrite (register_accepting self u _ Hurl Hok'). cbn [routes cors].
  rewrite <- !app_assoc.
  destruct (cors_allowed self); rewrite ?app_nil_r; reflexivity.
Qed.

Lemma register_twice_duplicates_witness :
  (register Sample.view ;; register Sample.view) Sample.empty
  = (mkRegistry
       (routes Sample.empty ++ expected_routes Sample.view "/api/sample"
        ++ expected_routes Sample.view "/api/sample")
       (cors Sample.empty
        ++ (if cors_allowed Sample.view
            then expected_routes Sample.view "/api/sample"
                 ++ expected_routes Sample.view "/api/sample"
            else [])),
     Return tt).
Proof.
  apply (register_twice_duplicates Sample.view "/api/sample" Sample.empty).
  - reflexivity.
  - intros method handler Hin Hget.
    simpl in Hin.
    repeat (destruct Hin as [<- | Hin];
            [simpl in Hget; try discriminate;
             injection Hget as <-; auto |]).
    contradiction.
Defined.

(** X2.  When the factory refuses the handler of a method, [register] raises
    its assertion error at that method: the routes of the methods before it
    are already in the router and stay there, no route is added for the
    method or for those after it, and the allow-CORS callback is not called
    at all. *)
Theorem register_stops_at_refused_handler (self : HomeAssistantView)
    (u : string) (st : Registry) (pre : list string) (method : string)
    (post : list string) (handler : Handler) :
  url self = Some u ->
  METHODS = pre ++ method :: post ->
  (forall m h,
     In m pre -> getattr (methods self) m = Some h ->
     iscoroutinefunction h = true \/ is_callback h = true) ->
  getattr (methods self) method = Some handler ->
  iscoroutinefunction handler = false ->
  is_callback handler = false ->
  register self st
  = (mkRegistry (routes st ++ routes_for self u pre) (cors st),
     Raise (AssertionError "Handler should be a coroutine or a callback.")).
Proof.
  intros Hurl Hsplit Hpre Hget Hco Hcb.
  rewrite register_unfold, Hurl, Hsplit.
  apply bind_raise.
  rewrite for_loop_app.
  erewrite bind_step.
  2: { apply for_methods. intros m h Hin Hm.
       apply orb_true_iff. exact (Hpre m h Hin Hm). }
  rewrite for_loop_cons.
  apply bind_raise.
  rewrite register_method_step, Hget, Hco, Hcb. cbn [orb].
  reflexivity.
Qed.

Lemma register_stops_at_refused_handler_witness :
  register Sample2.half_plain_view Sample.empty
  = (mkRegistry
       (routes Sample.empty
        ++ routes_for Sample2.half_plain_view "/api/half" ["get"%string])
       (cors Sample.empty),
     Raise (AssertionError "Handler should be a coroutine or a callback.")).
Proof.
  apply (register_stops_at_refused_handler Sample2.half_plain_view "/api/half"
           Sample.empty ["get"%string] "post"
           ["delete"; "put"; "patch"; "head"; "options"]%string
           Sample.plain_handler).
  - reflexivity.
  - reflexivity.
  - intros m h [<- | []] Hget. simpl in Hget. injection Hget as <-.
    left. reflexivity.
  - reflexivity.
  - reflexivity.
  - reflexivity.
Defined.

(** X3.  Whatever the view and whether it succeeds or raises, [register] only
    appends: the routes that the router held and the routes that the
    allow-CORS callback had been called with are kept, in their order, and
    the callback is called with none of the new routes or with all of them,
    in the order in which they were added.  So if every route that the
    callback has seen is in the router before, this is still so after. *)
Theorem register_only_appends (self : HomeAssistantView) (st : Registry) :
  let st' := fst (register self st) in
  routes st' = routes st ++ added_routes self st
  /\ (cors st' = cors st \/ cors st' = cors st ++ added_routes self st)
  /\ (incl (cors st) (routes st) -> incl (cors st') (routes st')).
Proof.
  cbv zeta.
  destruct (register_appends self st) as (added & Hroutes & Hcors & _).
  rewrite (added_routes_spec self st added Hroutes).
  split; [exact Hroutes|]. split; [exact Hcors|].
  intros Hincl r Hr. rewrite Hroutes. apply in_or_app.
  destruct Hcors as [Hcors | Hcors]; rewrite Hcors in Hr.
  - left. apply Hincl. exact Hr.
  - apply in_app_or in Hr. destruct Hr as [Hr | Hr]; [left; apply Hincl|right];
      exact Hr.
Qed.

Lemma register_only_appends_witness :
  incl (cors (fst (register Sample2.half_plain_view Sample.empty)))
       (routes (fst (register Sample2.half_plain_view Sample.empty))).
Proof.
  destruct (register_only_appends Sample2.half_plain_view Sample.empty)
    as (_ & _ & Hincl).
  apply Hincl. intros r [].
Defined.

Lemma added_routes_are_of_the_view_helper (self : HomeAssistantView)
    (st : Registry) :
  Forall (route_of_view self) (added_routes self st).
Proof.
  destruct (register_appends self st) as (added & Hroutes & _ & Hview).
  rewrite (added_routes_spec self st added Hroutes). exact Hview.
Qed.

(** X4.  Every route that [register] adds, whether it then succeeds or
    raises, binds one of the seven recognized methods, for which the view has
    a handler, and one of the URL patterns of the view (the primary one or an
    alternate) to the adapter of that handler: a handler under another name is
    never routed, and no handler is routed without the adapter. *)
Theorem added_routes_are_of_the_view (self : HomeAssistantView)
    (st : Registry) :
  Forall (route_of_view self) (added_routes self st).
Proof.
  exact (added_routes_are_of_the_view_helper self st).
Qed.

(** X5.  The checks of the adapter hold for every route that [register]
    adds: called while the application is not running, its handler answers
    503; called while it runs, for a view that requires authentication and a
    request that is not authenticated, it fails with the unauthorized
    condition; in both cases nothing is logged and the handler of the view is
    not called. *)
Theorem added_routes_are_gated (self : HomeAssistantView) (st : Registry)
    (r : Route) (request : Request) (t : trace) :
  In r (added_routes self st) ->
  (is_running request = false ->
   exists response,
     route_handler r request t = (t, Return response)
     /\ status response = PyInt 503)
  /\ (is_running request = true -> requires_auth self = true ->
      get_authenticated request = false ->
      route_handler r request t = (t, Raise HTTPUnauthorized)).
Proof.
  intros Hin.
  pose proof (proj1 (Forall_forall _ _)
                (added_routes_are_of_the_view_helper self st) r Hin)
    as (_ & _ & handler & _ & ->).
  rewrite handle_cases. split.
  - intros ->. eexists. split; reflexivity.
  - intros -> -> ->. reflexivity.
Qed.

Lemma added_routes_are_gated_witness :
  (is_running (Sample.request false None) = false ->
   exists response,
     route_handler Sample2.sample_route (Sample.request false None) []
     = ([], Return response)
     /\ status response = PyInt 503)
  /\ (is_running (Sample.request false None) = true ->
      requires_auth Sample.view = true ->
      get_authenticated (Sample.request false None) = false ->
      route_handler Sample2.sample_route (Sample.request false None) []
      = ([], Raise HTTPUnauthorized)).
Proof.
  apply (added_routes_are_gated Sample.view Sample.empty Sample2.sample_route
           (Sample.request false None) []).
  left. reflexivity.
Defined.

Lemma routes_for_length (self : HomeAssistantView) (u : string)
    (ms : list string) :
  List.length (routes_for self u ms)
  = (List.length
       (filter (fun method =>
                  match getattr (methods self) method with
                  | Some _ => true
                  | None => false
                  end) ms)
     * S (List.length (extra_urls self)))%nat.
Proof.
  induction ms as [|method ms IH]; [reflexivity|].
  change (method :: ms) with ([method] ++ ms).
  rewrite routes_for_app, length_app, IH.
  unfold routes_for. cbn [flat_map app filter].
  destruct (getattr (methods self) method); rewrite app_nil_r.
  - rewrite length_map. cbn [List.length]. lia.
  - cbn [List.length]. lia.
Qed.

(** X6.  The number of routes that a successful [register] adds is the
    number of recognized methods for which the view has a handler, times the
    number of URL patterns of the view (one more than its alternates). *)
Theorem register_route_count (self : HomeAssistantView) (u : string)
    (st : Registry) :
  url self = Some u ->
  (forall method handler,
     In method METHODS -> getattr (methods self) method = Some handler ->
     iscoroutinefunction handler = true \/ is_callback handler = true) ->
  List.length (added_routes self st)
  = (List.length (present_methods self)
     * S (List.length (extra_urls self)))%nat
  /\ List.length (routes (fst (register self st)))
     = (List.length (routes st)
        + List.length (present_methods self)
          * S (List.length (extra_urls self)))%nat.
Proof.
  intros Hurl Hok.
  assert (Hok' : forall method handler,
             In method METHODS -> getattr (methods self) method = Some handler ->
             iscoroutinefunction handler || is_callback handler = true).
  { intros method handler Hin Hget. apply orb_true_iff. eauto. }
  pose proof (register_accepting self u st Hurl Hok') as Hreg.
  assert (Hroutes : routes (fst (register self st))
                    = routes st ++ expected_routes self u)
    by (rewrite Hreg; reflexivity).
  rewrite (added_routes_spec self st _ Hroutes), Hroutes, length_app.
  unfold expected_routes, present_methods.
  rewrite routes_for_length. split; reflexivity.
Qed.

Lemma register_route_count_witness :
  List.length (added_routes Sample.view Sample.empty)
  = (List.length (present_methods Sample.view)
     * S (List.length (extra_urls Sample.view)))%nat
  /\ List.length (routes (fst (register Sample.view Sample.empty)))
     = (List.length (routes Sample.empty)
        + List.length (present_methods Sample.view)
          * S (List.length (extra_urls Sample.view)))%nat.
Proof.
  apply (register_route_count Sample.view "/api/sample" Sample.empty).
  - reflexivity.
  - intros method handler Hin Hget.
    simpl in Hin.
    repeat (destruct Hin as [<- | Hin];
            [simpl in Hget; try discriminate;
             injection Hget as <-; auto |]).
    contradiction.
Defined.

(* ================================================================== *)
(** ** The adapter, in all cases *)

Lemma handle_trace (view : HomeAssistantView) (handler : Handler)
    (request : Request) (t : trace) :
  fst (handle view handler request t)
  = t ++ (if served view request then serving_events handler request else []).
Proof.
  rewrite handle_cases. unfold served.
  destruct (is_running request); cbn [negb andb]; [|symmetry; apply app_nil_r].
  destruct (requires_auth view); destruct (get_authenticated request);
    cbn [negb andb orb];
    try apply answer_keeps_trace.
  symmetry. apply app_nil_r.
Qed.

(** X7.  The adapter reaches the handler exactly when the application is
    running and the view does not require authentication or the request is
    authenticated.  Then it logs the debug line, calls the handler once and
    waits for its coroutine if it gave one, in this order, and nothing more;
    otherwise it logs nothing and does not call the handler.  So whenever a
    handler of a view that requires authentication has been called, the
    request was authenticated. *)
Theorem handler_called_exactly_when_served (view : HomeAssistantView)
    (handler : Handler) (request : Request) (t : trace) :
  fst (handle view handler request t)
  = t ++ (if served view request then serving_events handler request else [])
  /\ invocations (fst (handle view handler request t))
     = (invocations t + (if served view request then 1 else 0))%nat
  /\ (invocations t < invocations (fst (handle view handler request t))
      -> requires_auth view = true ->
      is_running request = true /\ authenticated request = Some true)%nat.
Proof.
  assert (Hcount : invocations (fst (handle view handler request t))
                   = (invocations t
                      + (if served view request then 1 else 0))%nat).
  { rewrite handle_trace, invocations_app.
    destruct (served view request); [|reflexivity].
    unfold serving_events. rewrite invocations_app. simpl.
    destruct (gives_coroutine handler request); reflexivity. }
  split; [apply handle_trace|]. split; [exact Hcount|].
  intros Hcalled Hauth. rewrite Hcount in Hcalled.
  unfold served, get_authenticated in Hcalled. rewrite Hauth in Hcalled.
  destruct (is_running request); cbn [andb negb orb] in Hcalled; [|lia].
  destruct (authenticated request) as [[|]|]; try lia.
  split; reflexivity.
Qed.

Lemma handler_called_exactly_when_served_witness :
  is_running (Sample.request true (Some true)) = true
  /\ authenticated (Sample.request true (Some true)) = Some true.
Proof.
  destruct (handler_called_exactly_when_served Sample.view Sample.ok_handler
              (Sample.request true (Some true)) []) as (_ & _ & Hcalled).
  apply Hcalled.
  - simpl. lia.
  - reflexivity.
Defined.

Lemma answer_not_internal (o : outcome pyval) (t : trace) (e : exn) :
  snd (answer o t) = Raise e -> ~ internal e.
Proof.
  unfold internal.
  destruct o as [v | e0]; run.
  - destruct v; simpl;
      try (intros [= <-]; intros [H | [H | H]]; discriminate);
      try discriminate.
    + unfold str_encode. destruct (utf8_encode s); simpl; [discriminate|].
      intros [= <-]; intros [H | [H | H]]; discriminate.
    + destruct items as [|a [|b [|c items]]]; simpl;
        try (intros [= <-]; intros [H | [H | H]]; discriminate).
      destruct (to_bytes a) eqn:Hbytes; simpl; [discriminate|].
      intros [= <-].
      destruct a; simpl in Hbytes; try discriminate;
        try (injection Hbytes as <-; intros [H | [H | H]]; discriminate).
      unfold str_encode in Hbytes. destruct (utf8_encode s); [discriminate|].
      injection Hbytes as <-. intros [H | [H | H]]; discriminate.
  - destruct e0; simpl; intros [= <-]; intros [H | [H | H]]; discriminate.
Qed.

(** X8.  The exceptions of the handlers that the adapter translates never
    leave it: whatever the view, the handler and the request, what [handle]
    raises is not a validation error, nor a service-not-found condition, nor
    the internal unauthorized condition. *)
Theorem internal_exceptions_never_leave (view : HomeAssistantView)
    (handler : Handler) (request : Request) (t : trace) (e : exn) :
  snd (handle view handler request t) = Raise e -> ~ internal e.
Proof.
  rewrite handle_cases.
  destruct (negb (is_running request)); [discriminate|].
  destruct (requires_auth view && negb (get_authenticated request)).
  - intros [= <-]. intros [H | [H | H]]; discriminate.
  - apply answer_not_internal.
Qed.

Lemma internal_exceptions_never_leave_witness :
  ~ internal HTTPUnauthorized.
Proof.
  apply (internal_exceptions_never_leave Sample.view
           (Sample.failing_handler Unauthorized)
           (Sample.request true (Some true)) []).
  reflexivity.
Defined.

(* ================================================================== *)
(** ** The JSON helpers, in all cases *)







(* ================================================================== *)
(** ** Reading back objects of text *)

(** A member of an object whose value is text, as the encoder writes it. *)
Lemma render_member_text (k v : pystr) :
  render_member (k, json_dumps (PyStr v))
  = Return (encode_basestring_ascii k ++ lit ": " ++ encode_basestring_ascii v).
Proof. reflexivity. Qed.







Section reading_objects.
#[local] Arguments scanstring : simpl never.
#[local] Arguments skip_ws : simpl never.
#[local] Arguments scan_once : simpl never.
#[local] Arguments scan_members : simpl never.

End reading_objects.





Section reading_text_objects.
#[local] Arguments scanstring : simpl never.
#[local] Arguments skip_ws : simpl never.
#[local] Arguments scan_once : simpl never.
#[local] Arguments scan_members : simpl never.

End reading_text_objects.



Example json_text_object_sorted :
  sort_items [(lit "state", lit "on"); (lit "entity", lit "light")]
  = [(lit "entity", lit "light"); (lit "state", lit "on")].
Proof. reflexivity. Qed.

Section reading_text.
#[local] Arguments scanstring : simpl never.
#[local] Arguments skip_ws : simpl never.
#[local] Arguments scan_once : simpl never.

End reading_text.


